(** * create-tsi helpers: [.env] rendering and template copying

    A shallow embedding of [src/helpers/env-variables.ts] and
    [src/helpers/copy.ts].

    JavaScript strings are modelled by [string]; the only character the
    code inspects is the line feed, which is a single code unit in either
    representation.  An optional field ([name?: string]) is an
    [option string]: [None] is [undefined]. *)

From Stdlib Require Import String Ascii List Bool ZArith Lia DecimalString.
Import ListNotations.

Open Scope string_scope.

(** ** JavaScript values used by the helpers *)

Module JS.

(** The line feed, written ["\n"] in the source. *)
Definition LF : ascii := "010"%char.
Definition nl : string := String LF "".

(** The double quote. *)
Definition DQUOTE : ascii := "034"%char.

(** Truthiness of a [string | undefined]: [undefined] and the empty
    string are falsy, every other string is truthy. *)
Definition truthy (v : option string) : bool :=
  match v with
  | Some (String _ _) => true
  | _ => false
  end.

(** [v ? yes(v) : no]. *)
Definition cond {A : Type} (v : option string) (yes : string -> A) (no : A) : A :=
  match v with
  | Some (String c s) => yes (String c s)
  | _ => no
  end.

(** [v || d] where [d] is a string. *)
Definition or_else (v : option string) (d : string) : string :=
  cond v (fun s => s) d.

(** [s.replaceAll(c, rep)] for a pattern [c] of one code unit and a
    replacement without [$]: every occurrence of [c] is replaced, left
    to right, and the replacement is not scanned again. *)
Fixpoint replaceAll (s : string) (c : ascii) (rep : string) : string :=
  match s with
  | EmptyString => EmptyString
  | String a s' =>
      if Ascii.eqb a c then rep ++ replaceAll s' c rep
      else String a (replaceAll s' c rep)
  end.

(** [n.toString()] for an integer-valued number. *)
Definition toString (n : Z) : string :=
  NilZero.string_of_int (Z.to_int n).

End JS.

Import JS.

(** ** Text utilities used to state the properties *)

(** Concatenation of a list of strings. *)
Definition flat (ls : list string) : string := fold_right append "" ls.

(** [split_on c s]: the pieces of [s] between occurrences of [c], as
    [s.split(c)] gives them. *)
Fixpoint split_on (c : ascii) (s : string) : list string :=
  match s with
  | EmptyString => [""]
  | String a s' =>
      if Ascii.eqb a c then "" :: split_on c s'
      else match split_on c s' with
           | l :: ls => String a l :: ls
           | [] => [String a ""]
           end
  end.

(** The lines of a text: the text split on every line feed. *)
Definition lines (s : string) : list string := split_on LF s.

(** A string without any line feed. *)
Fixpoint no_LF (s : string) : bool :=
  match s with
  | EmptyString => true
  | String a s' => negb (Ascii.eqb a LF) && no_LF s'
  end.

(** A comment line of a [.env] file, with its line feed. *)
Definition commentLine (l : string) : string := "# " ++ l ++ nl.

(** [has_line l s]: [l] is one of the lines of the text [s]. *)
Definition has_line (l s : string) : Prop := In l (lines s).

(** ** [env-variables.ts] *)

(** [type EnvVar = { name?: string; description?: string; value?: string }] *)
Record EnvVar : Type := mkEnvVar {
  name : option string;
  description : option string;
  value : option string
}.

(** The object literal [{}]. *)
Definition emptyEnvVar : EnvVar := mkEnvVar None None None.

(** The first parenthesised operand of the reducer:
    [env.description ? `# ${env.description.replaceAll("\n", "\n# ")}\n` : ""]. *)
Definition descriptionText (env : EnvVar) : string :=
  cond (description env)
    (fun d => "# " ++ replaceAll d LF (nl ++ "# ") ++ nl)
    "".

(** The second parenthesised operand of the reducer:
    [env.name ? (env.value ? `${env.name}=${env.value}\n\n` : `# ${env.name}=\n\n`) : ""]. *)
Definition nameText (env : EnvVar) : string :=
  cond (name env)
    (fun n =>
       cond (value env)
         (fun v => n ++ "=" ++ v ++ nl ++ nl)
         ("# " ++ n ++ "=" ++ nl ++ nl))
    "".

(** [renderEnvVar]: [envVars.reduce((prev, env) => prev + (...) + (...), "")]. *)
Definition renderEnvVar (envVars : list EnvVar) : string :=
  fold_left
    (fun prev env => (prev ++ descriptionText env) ++ nameText env)
    envVars
    "".

(** The text one entry adds to the accumulator. *)
Definition entryText (env : EnvVar) : string :=
  descriptionText env ++ nameText env.

(** [getVectorDBEnvs]: a [switch] on the identifier, compared with [===].
    [TemplateVectorDB] is declared in [./types]; an identifier is modelled
    as a string, so every key the switch can receive is covered. *)
Definition getVectorDBEnvs (vectorDb : string) : list EnvVar :=
  if vectorDb =? "mongo" then
    [ mkEnvVar (Some "MONGO_URI")
        (Some ("For generating a connection URI, see https://docs.timescale.com/use-timescale/latest/services/create-a-service"
               ++ nl ++ "The MongoDB connection URI."))
        None;
      mkEnvVar (Some "MONGODB_DATABASE") None None;
      mkEnvVar (Some "MONGODB_VECTORS") None None;
      mkEnvVar (Some "MONGODB_VECTOR_INDEX") None None ]
  else if vectorDb =? "pg" then
    [ mkEnvVar (Some "PG_CONNECTION_STRING")
        (Some ("For generating a connection URI, see https://docs.timescale.com/use-timescale/latest/services/create-a-service"
               ++ nl ++ "The PostgreSQL connection string."))
        None ]
  else if vectorDb =? "pinecone" then
    [ mkEnvVar (Some "PINECONE_API_KEY")
        (Some ("Configuration for Pinecone vector store" ++ nl ++ "The Pinecone API key."))
        None;
      mkEnvVar (Some "PINECONE_ENVIRONMENT") None None;
      mkEnvVar (Some "PINECONE_INDEX_NAME") None None ]
  else if vectorDb =? "milvus" then
    [ mkEnvVar (Some "MILVUS_ADDRESS")
        (Some "The address of the Milvus server. Eg: http://localhost:19530")
        (Some "http://localhost:19530");
      mkEnvVar (Some "MILVUS_COLLECTION")
        (Some "The name of the Milvus collection to store the vectors.")
        (Some "llamacollection");
      mkEnvVar (Some "MILVUS_USERNAME")
        (Some "The username to access the Milvus server.")
        None;
      mkEnvVar (Some "MILVUS_PASSWORD")
        (Some "The password to access the Milvus server.")
        None ]
  else [].

(** The options of [createBackendEnvFile].  [TemplateFramework] is declared
    in [./types] and is modelled as a string; [TemplateDataSource] is a
    parameter (the field is never read); [port] is an integer. *)
Record BackendOpts (TemplateDataSource : Type) : Type := mkBackendOpts {
  openAiKey : option string;
  llamaCloudKey : option string;
  vectorDb : option string;
  model : option string;
  embeddingModel : option string;
  framework : option string;
  dataSources : option (list TemplateDataSource);
  port : option Z
}.

Arguments mkBackendOpts {TemplateDataSource}.
Arguments openAiKey {TemplateDataSource}.
Arguments llamaCloudKey {TemplateDataSource}.
Arguments vectorDb {TemplateDataSource}.
Arguments model {TemplateDataSource}.
Arguments embeddingModel {TemplateDataSource}.
Arguments framework {TemplateDataSource}.
Arguments dataSources {TemplateDataSource}.
Arguments port {TemplateDataSource}.

(** [opts.framework === s]. *)
Definition framework_is {T : Type} (opts : BackendOpts T) (s : string) : bool :=
  match framework opts with
  | Some f => f =? s
  | None => false
  end.

(** The five literal entries that open [defaultEnvs].  The extra field
    [render: true] of the first two is not a field of [EnvVar] and is
    never read. *)
Definition baseEnvs {T : Type} (opts : BackendOpts T) : list EnvVar :=
  [ mkEnvVar (Some "MODEL")
      (Some "The name of LLM model to use.")
      (Some (or_else (model opts) "gpt-3.5-turbo"));
    mkEnvVar (Some "TSI_API_KEY")
      (Some "The T-Systems API key to use.")
      (openAiKey opts);
    mkEnvVar (Some "TSI_API_BASE_URL")
      (Some "The T-Systems API base URL.")
      (Some "https://llm-server.llmhub.t-systems.net/v2");
    mkEnvVar (Some "TSI_EMBED_API_BASE_URL")
      (Some "The T-Systems embedding API base URL.")
      (Some "https://llm-server.llmhub.t-systems.net/v2");
    mkEnvVar (Some "LLAMA_CLOUD_API_KEY")
      (Some "The Llama Cloud API key.")
      (llamaCloudKey opts) ].

(** [...(opts.vectorDb ? getVectorDBEnvs(opts.vectorDb) : [])]. *)
Definition vectorDbEnvs {T : Type} (opts : BackendOpts T) : list EnvVar :=
  cond (vectorDb opts) getVectorDBEnvs [].

(** [defaultEnvs] of [createBackendEnvFile]. *)
Definition defaultEnvs {T : Type} (opts : BackendOpts T) : list EnvVar :=
  baseEnvs opts ++ vectorDbEnvs opts.

(** The entries spread after [defaultEnvs] when the framework is
    ["fastapi"]. *)
Definition fastapiEnvs {T : Type} (opts : BackendOpts T) : list EnvVar :=
  [ mkEnvVar (Some "APP_HOST")
      (Some "The address to start the backend app.")
      (Some "0.0.0.0");
    mkEnvVar (Some "APP_PORT")
      (Some "The port to start the backend app.")
      (Some (or_else (option_map toString (port opts)) "8000"));
    mkEnvVar (Some "EMBEDDING_MODEL")
      (Some "Name of the embedding model to use.")
      (embeddingModel opts);
    mkEnvVar (Some "EMBEDDING_DIM")
      (Some "Dimension of the embedding model to use.")
      None;
    mkEnvVar (Some "LLM_TEMPERATURE")
      (Some "Temperature for sampling from the model.")
      None;
    mkEnvVar (Some "LLM_MAX_TOKENS")
      (Some "Maximum number of tokens to generate.")
      None;
    mkEnvVar (Some "TOP_K")
      (Some "The number of similar embeddings to return when retrieving documents.")
      (Some "3");
    mkEnvVar (Some "SYSTEM_PROMPT")
      (Some ("Custom system prompt." ++ nl
             ++ "Example:" ++ nl
             ++ "SYSTEM_PROMPT=" ++ String DQUOTE "" ++ nl
             ++ "We have provided context information below." ++ nl
             ++ "---------------------" ++ nl
             ++ "{context_str}" ++ nl
             ++ "---------------------" ++ nl
             ++ "Given this information, please answer the question: {query_str}" ++ nl
             ++ String DQUOTE ""))
      None ].

(** The single entry spread after [defaultEnvs] otherwise:
    [opts.framework === "nextjs" ? {...} : {}]. *)
Definition otherFrameworkEnv {T : Type} (opts : BackendOpts T) : EnvVar :=
  if framework_is opts "nextjs" then
    mkEnvVar (Some "NEXT_PUBLIC_MODEL")
      (Some "The LLM model to use (hardcode to front-end artifact).")
      (Some (or_else (model opts) "gpt-3.5-turbo"))
  else emptyEnvVar.

(** [envVars] of [createBackendEnvFile], after the [if]. *)
Definition backendEnvVars {T : Type} (opts : BackendOpts T) : list EnvVar :=
  if framework_is opts "fastapi" then defaultEnvs opts ++ fastapiEnvs opts
  else defaultEnvs opts ++ [otherFrameworkEnv opts].

(** [content] of [createBackendEnvFile]. *)
Definition backendEnvContent {T : Type} (opts : BackendOpts T) : string :=
  renderEnvVar (backendEnvVars opts).

(** The options of [createFrontendEnvFile]. *)
Record FrontendOpts : Type := mkFrontendOpts {
  customApiPath : option string;
  fe_model : option string
}.

(** [defaultFrontendEnvs]. *)
Definition defaultFrontendEnvs (opts : FrontendOpts) : list EnvVar :=
  [ mkEnvVar (Some "MODEL")
      (Some "The OpenAI model to use.")
      (fe_model opts);
    mkEnvVar (Some "NEXT_PUBLIC_MODEL")
      (Some "The OpenAI model to use (hardcode to front-end artifact).")
      (fe_model opts);
    mkEnvVar (Some "NEXT_PUBLIC_CHAT_API")
      (Some "The backend API for chat endpoint.")
      (Some (cond (customApiPath opts) (fun p => p) "http://localhost:8000/api/chat")) ].

(** [content] of [createFrontendEnvFile]. *)
Definition frontendEnvContent (opts : FrontendOpts) : string :=
  renderEnvVar (defaultFrontendEnvs opts).

(** ** Input and output

    The helpers reach the outside world through [fast-glob], [fs] and
    [console].  A computation threads the log of the calls made so far and
    ends in a value or in an exception. *)

Inductive Call : Type :=
| Glob (patterns : list string) (cwd : option string)
| Mkdir (dir : string)
| CopyFile (from to : string)
| WriteFile (file content : string)
| ConsoleLog (msg : string).

Inductive Exn : Type :=
| TypeError (msg : string)
| IOFailure (call : Call).

Definition IO (A : Type) : Type := list Call -> list Call * (Exn + A).

Definition ret {A : Type} (a : A) : IO A := fun log => (log, inr a).

Definition throw {A : Type} (e : Exn) : IO A := fun log => (log, inl e).

Definition bind {A B : Type} (m : IO A) (k : A -> IO B) : IO B :=
  fun log =>
    match m log with
    | (log', inr a) => k a log'
    | (log', inl e) => (log', inl e)
    end.

Notation "x <- m ;; k" := (bind m (fun x => k))
  (at level 61, m at next level, right associativity).
Notation "m ;;; k" := (bind m (fun _ => k))
  (at level 61, right associativity).

(** [Promise.all(tasks)]: every task has been started, so each one runs
    whether or not another fails; the result is the list of values, or the
    exception of a task that failed.  The log lists the calls task by
    task; the order in which calls of different tasks reach the file
    system is not fixed by the source. *)
Fixpoint all {A : Type} (tasks : list (IO A)) : IO (list A) :=
  match tasks with
  | [] => ret []
  | t :: ts =>
      fun log =>
        match t log with
        | (log1, r) =>
            match all ts log1 with
            | (log2, rs) =>
                (log2,
                 match r, rs with
                 | inl e, _ => inl e
                 | inr _, inl e => inl e
                 | inr a, inr l => inr (a :: l)
                 end)
            end
        end
  end.

(** The first argument of [copy]: [string | string[]]. *)
Inductive Src : Type :=
| One (pattern : string)
| Many (patterns : list string).

(** [interface CopyOption]. *)
Record CopyOption : Type := mkCopyOption {
  cwd : option string;
  rename : option (string -> string);
  parents : option bool
}.

(** [const identity = (x: string) => x]. *)
Definition identity (x : string) : string := x.

(** The string held by a [string | undefined] known to be a string. *)
Definition the_string (v : option string) : string :=
  match v with
  | Some s => s
  | None => ""
  end.

(** ** The lines of a rendered file *)

(** An optional string without any line feed. *)
Definition LF_free (v : option string) : bool :=
  match v with
  | Some s => no_LF s
  | None => true
  end.

(** A text that is empty or ends with a line feed. *)
Definition line_terminated (s : string) : Prop :=
  s = "" \/ exists p, s = p ++ nl.

(** A comment line: it starts with [# ]. *)
Definition is_comment (l : string) : bool :=
  match l with
  | String a (String b _) => Ascii.eqb a "#" && Ascii.eqb b " "
  | _ => false
  end.

(** The lines an entry stands for: one comment per line of a truthy
    description, then, for a truthy name, the assignment or the commented
    placeholder and a blank line. *)
Definition entryLines (env : EnvVar) : list string :=
  List.app
    (cond (description env) (fun d => map (append "# ") (lines d)) [])
    (cond (name env)
       (fun n => [cond (value env) (fun v => n ++ "=" ++ v) ("# " ++ n ++ "="); ""])
       []).

(** The test an entry must pass to add anything to the file. *)
Definition renders (env : EnvVar) : bool :=
  truthy (name env) || truthy (description env).

(** ** A model of [path.posix]

    Used to run the helpers on concrete paths.  It follows Node's
    documentation for paths that do not end in a slash. *)

Module Posix.

Definition slash : ascii := "/"%char.

(** Segments of a normalised path: [""] and ["."] are dropped, [".."]
    removes the segment before it when there is one to remove. *)
Fixpoint norm_segments (absolute : bool) (segs : list string) (stack : list string) : list string :=
  match segs with
  | [] => rev stack
  | seg :: rest =>
      if (seg =? "") || (seg =? ".") then norm_segments absolute rest stack
      else if seg =? ".." then
        match stack with
        | top :: below =>
            if top =? ".." then norm_segments absolute rest (seg :: stack)
            else norm_segments absolute rest below
        | [] =>
            if absolute then norm_segments absolute rest stack
            else norm_segments absolute rest [seg]
        end
      else norm_segments absolute rest (seg :: stack)
  end.

(** [path.normalize]. *)
Definition normalize (p : string) : string :=
  let absolute := match p with String a _ => Ascii.eqb a slash | EmptyString => false end in
  let body := String.concat "/" (norm_segments absolute (split_on slash p) []) in
  if absolute then "/" ++ body
  else if body =? "" then "." else body.

(** [path.join(...segments)]: the non-empty segments joined by a slash,
    then normalised. *)
Definition join (segments : list string) : string :=
  normalize (String.concat "/" (filter (fun s => negb (s =? "")) segments)).

(** [path.basename(p)]. *)
Definition basename (p : string) : string :=
  last (split_on slash p) "".

(** [path.dirname(p)]. *)
Definition dirname (p : string) : string :=
  match split_on slash p with
  | [] | [_] => "."
  | segs =>
      let d := String.concat "/" (removelast segs) in
      if d =? "" then "/" else d
  end.

(** [path.resolve(cwd, p)] for an absolute [cwd]. *)
Definition resolve (cwd p : string) : string :=
  match p with
  | String a _ => if Ascii.eqb a slash then normalize p else normalize (cwd ++ "/" ++ p)
  | EmptyString => normalize cwd
  end.

End Posix.

(** A [rename] that maps the letters [a]-[z] to upper case. *)
Definition upper_char (a : ascii) : ascii :=
  let n := nat_of_ascii a in
  if (97 <=? n)%nat && (n <=? 122)%nat then ascii_of_nat (n - 32) else a.

Fixpoint toUpperCase (s : string) : string :=
  match s with
  | EmptyString => EmptyString
  | String a s' => String (upper_char a) (toUpperCase s')
  end.

Section Node.

(** Node's [path] module. *)
Variable path_join : list string -> string.
Variable path_resolve : string -> string -> string.
Variable path_dirname : string -> string.
Variable path_basename : string -> string.

(** The outside world: what [fast-glob] finds, and whether a call fails,
    both depending on the calls made before. *)
Variable glob_result : list Call -> list string -> option string -> list string.
Variable fails : list Call -> Call -> bool.

(** A call to [fs] or [console]. *)
Definition perform (c : Call) : IO unit :=
  fun log => ((log ++ [c])%list, if fails log c then inl (IOFailure c) else inr tt).

(** [glob(source, { cwd, dot: true, absolute: false, stats: false })]. *)
Definition glob (source : list string) (cwd : option string) : IO (list string) :=
  fun log =>
    ((log ++ [Glob source cwd])%list,
     if fails log (Glob source cwd) then inl (IOFailure (Glob source cwd))
     else inr (glob_result log source cwd)).

(** [createBackendEnvFile]. *)
Definition createBackendEnvFile {T : Type} (root : string) (opts : BackendOpts T) : IO unit :=
  let envFileName := ".env" in
  let content := backendEnvContent opts in
  perform (WriteFile (path_join [root; envFileName]) content) ;;;
  perform (ConsoleLog ("Created '" ++ envFileName ++ "' file. Please check the settings.")).

(** [createFrontendEnvFile]. *)
Definition createFrontendEnvFile (root : string) (opts : FrontendOpts) : IO unit :=
  let content := frontendEnvContent opts in
  perform (WriteFile (path_join [root; ".env"]) content).

(** [destRelativeToCwd]. *)
Definition destRelativeToCwd (cwd : option string) (dest : string) : string :=
  cond cwd (fun c => path_resolve c dest) dest.

(** [to], the destination path of the matched path [p]. *)
Definition copyTo (root : string) (rename : string -> string) (parents : bool) (p : string) : string :=
  let dirname := path_dirname p in
  let basename := rename (path_basename p) in
  if parents then path_join [root; dirname; basename]
  else path_join [root; basename].

(** [from], the source path of the matched path [p]. *)
Definition copyFrom (cwd : option string) (p : string) : string :=
  cond cwd (fun c => path_resolve c p) p.

(** The callback of [sourceFiles.map]. *)
Definition copyOne (cwd : option string) (root : string) (rename : string -> string)
    (parents : bool) (p : string) : IO unit :=
  let from := copyFrom cwd p in
  let to := copyTo root rename parents p in
  perform (Mkdir (path_dirname to)) ;;;
  perform (CopyFile from to).

(** [source], the normalised first argument. *)
Definition sourceOf (src : Src) : list string :=
  match src with
  | One s => [s]
  | Many l => l
  end.

(** [copy].  The third argument is [None] when the caller passes no
    options ([= {}]); absent fields take their defaults ([rename =
    identity], [parents = true]). *)
Definition copy (src : Src) (dest : option string) (options : option CopyOption) : IO (list unit) :=
  let o := match options with Some o => o | None => mkCopyOption None None None end in
  let cwd_ := cwd o in
  let rename_ := match rename o with Some f => f | None => identity end in
  let parents_ := match parents o with Some b => b | None => true end in
  let source := sourceOf src in
  if (List.length source =? 0)%nat || negb (truthy dest) then
    throw (TypeError "`src` and `dest` are required")
  else
    sourceFiles <- glob source cwd_ ;;
    let root := destRelativeToCwd cwd_ (the_string dest) in
    all (map (copyOne cwd_ root rename_ parents_) sourceFiles).


(** *** Facts about the log *)

(** With a non-empty source sequence and a non-empty destination the
    validation of [copy] passes: the test reduces to [false]. *)
Ltac valid_arguments src d :=
  let s := fresh "s" in
  let ss := fresh "ss" in
  let a := fresh "a" in
  let d' := fresh "d'" in
  destruct (sourceOf src) as [|s ss]; [contradiction|];
  destruct d as [|a d']; [contradiction|];
  cbn [List.length Nat.eqb truthy negb orb the_string].




(** The rename function reaches the destination path only through its
    value at the base name. *)
Lemma copyTo_rename_at_basename (root : string) (f g : string -> string)
    (par : bool) (p : string) :
  f (path_basename p) = g (path_basename p) ->
  copyTo root f par p = copyTo root g par p.
Proof. intros H. unfold copyTo. cbv zeta. now rewrite H. Qed.

(** A task only adds calls to the log, and so does [Promise.all]. *)
Lemma copyOne_extends_log (cwd_ : option string) (root : string) (rn : string -> string)
    (par : bool) (p : string) (log : list Call) :
  exists added, fst (copyOne cwd_ root rn par p log) = (log ++ added)%list.
Proof.
  unfold copyOne, bind, perform. cbv zeta.
  destruct (fails log _); cbn [fst].
  - eexists. reflexivity.
  - eexists. rewrite <- app_assoc. reflexivity.
Qed.

Lemma all_extends_log {A : Type} (tasks : list (IO A)) :
  (forall t, In t tasks -> forall l, exists added, fst (t l) = (l ++ added)%list) ->
  forall log, exists added, fst (all tasks log) = (log ++ added)%list.
Proof.
  induction tasks as [|t ts IH]; intros Hin log; cbn [all].
  - exists []. cbn. now rewrite app_nil_r.
  - destruct (Hin t (or_introl eq_refl) log) as [e1 He1].
    destruct (t log) as [l1 r1]. cbn [fst] in He1. subst l1.
    destruct (IH (fun t' H' => Hin t' (or_intror H')) (log ++ e1)%list) as [e2 He2].
    destruct (all ts (log ++ e1)%list) as [l2 rs]. cbn [fst] in *. subst l2.
    exists (e1 ++ e2)%list. now rewrite app_assoc.
Qed.

(** With valid arguments the first thing [copy] does is the glob call. *)
Lemma copy_valid_starts_with_glob (src : Src) (d : string) (options : option CopyOption)
    (log : list Call) :
  sourceOf src <> [] -> d <> "" ->
  exists (cwd_ : option string) (rest : list Call),
    fst (copy src (Some d) options log) = (log ++ Glob (sourceOf src) cwd_ :: rest)%list.
Proof.
  intros Hs Hd. unfold copy. cbv zeta. valid_arguments src d.
  set (o := match options with Some o => o | None => _ end).
  exists (cwd o). unfold bind, glob.
  destruct (fails log (Glob (s :: ss) (cwd o))).
  - exists []. reflexivity.
  - match goal with |- context [all ?ts ?l] => destruct (all_extends_log ts) with (log := l) as [e He] end.
    + intros t Ht l0. apply in_map_iff in Ht. destruct Ht as [p [<- _]].
      apply copyOne_extends_log.
    + exists e.
      match goal with |- context [all ?ts ?l] => destruct (all ts l) as [l2 r2] end.
      cbn [fst] in *. subst l2. now rewrite <- app_assoc.
Qed.

(** C3. [copy] fails with the [TypeError] (the spec's InvalidArgument) when
    the normalised source sequence is empty or the destination is undefined
    or the empty string, and it does so before any call to the file system:
    the log of calls is returned unchanged (no glob expansion, no directory
    creation, no file copy). *)
Theorem copy_invalid_argument (src : Src) (dest : option string)
    (options : option CopyOption) (log : list Call) :
  sourceOf src = [] \/ dest = None \/ dest = Some "" ->
  copy src dest options log = (log, inl (TypeError "`src` and `dest` are required")).
Proof.
  intros H. unfold copy. cbv zeta.
  destruct H as [Hs | [Hd | Hd]].
  - rewrite Hs. reflexivity.
  - subst dest. cbn [truthy negb]. rewrite orb_true_r. reflexivity.
  - subst dest. cbn [truthy negb]. rewrite orb_true_r. reflexivity.
Qed.

(** C4. With valid arguments and a glob call that succeeds, [copy] runs one
    task per matched path [p]; the task creates the parent directory of,
    and copies to, the path [join(root, dirname(p), rename(basename(p)))]
    when [parents] is true or absent, and [join(root, rename(basename(p)))]
    when [parents] is false, where [root] is the resolved destination and
    [rename] defaults to the identity.  The rename function is applied to
    the base name only; [dirname(p)] is passed on as it is. *)
Theorem copy_destination_path (src : Src) (d : string) (options : option CopyOption)
    (log : list Call) :
  sourceOf src <> [] -> d <> "" ->
  let o := match options with Some o => o | None => mkCopyOption None None None end in
  let rn := match rename o with Some f => f | None => identity end in
  let root := destRelativeToCwd (cwd o) d in
  let target p :=
    match parents o with
    | Some false => path_join [root; rn (path_basename p)]
    | _ => path_join [root; path_dirname p; rn (path_basename p)]
    end in
  fails log (Glob (sourceOf src) (cwd o)) = false ->
  copy src (Some d) options log
  = all (map (fun p =>
                perform (Mkdir (path_dirname (target p))) ;;;
                perform (CopyFile (copyFrom (cwd o) p) (target p)))
             (glob_result log (sourceOf src) (cwd o)))
        (log ++ [Glob (sourceOf src) (cwd o)])%list.
Proof.
  intros Hs Hd o rn root target Hg. unfold copy. cbv zeta.
  valid_arguments src d.
  fold o. unfold bind at 1. unfold glob. rewrite Hg.
  fold rn. fold root. subst target.
  destruct (parents o) as [[|]|]; reflexivity.
Qed.


(** [createBackendEnvFile] writes [backendEnvContent opts] to
    [join(root, ".env")] as its first call. *)
Lemma createBackendEnvFile_writes {T : Type} (root : string) (opts : BackendOpts T)
    (log : list Call) :
  exists (rest : list Call) (r : Exn + unit),
    createBackendEnvFile root opts log
    = ((log ++ WriteFile (path_join [root; ".env"]) (backendEnvContent opts) :: rest)%list, r).
Proof.
  unfold createBackendEnvFile, bind, perform. cbv zeta.
  destruct (fails log _).
  - exists [], (inl (IOFailure (WriteFile (path_join [root; ".env"]) (backendEnvContent opts)))).
    reflexivity.
  - eexists; eexists. rewrite <- app_assoc. reflexivity.
Qed.

(** *** What a task and [Promise.all] do when calls fail *)





(** [copy] with valid arguments and a glob call that succeeded. *)
Lemma copy_valid_unfold (src : Src) (d : string) (options : option CopyOption)
    (log : list Call) :
  sourceOf src <> [] -> d <> "" ->
  let o := match options with Some o => o | None => mkCopyOption None None None end in
  let rn := match rename o with Some f => f | None => identity end in
  let par := match parents o with Some b => b | None => true end in
  let root := destRelativeToCwd (cwd o) d in
  copy src (Some d) options log
  = if fails log (Glob (sourceOf src) (cwd o))
    then ((log ++ [Glob (sourceOf src) (cwd o)])%list,
          inl (IOFailure (Glob (sourceOf src) (cwd o))))
    else all (map (copyOne (cwd o) root rn par) (glob_result log (sourceOf src) (cwd o)))
             (log ++ [Glob (sourceOf src) (cwd o)])%list.
Proof.
  intros Hs Hd o rn par root. unfold copy. cbv zeta.
  valid_arguments src d.
  fold o. unfold bind at 1. unfold glob.
  destruct (fails log _); reflexivity.
Qed.




(** X8. When the glob call fails, or matches no file, [copy] makes no
    other call: in the first case it rejects with that failure, in the
    second it resolves with the empty list. *)
Theorem copy_nothing_to_copy (src : Src) (d : string) (options : option CopyOption)
    (log : list Call) :
  sourceOf src <> [] -> d <> "" ->
  let o := match options with Some o => o | None => mkCopyOption None None None end in
  let g := Glob (sourceOf src) (cwd o) in
  (fails log g = true ->
   copy src (Some d) options log = ((log ++ [g])%list, inl (IOFailure g))) /\
  (fails log g = false -> glob_result log (sourceOf src) (cwd o) = [] ->
   copy src (Some d) options log = ((log ++ [g])%list, inr [])).
Proof.
  intros Hs Hd o g.
  rewrite (copy_valid_unfold src d options log Hs Hd). cbv zeta. fold o g.
  split.
  - intros ->. reflexivity.
  - intros -> ->. reflexivity.
Qed.

(** X9. [createBackendEnvFile] first writes the rendered content to
    [join(root, ".env")]; the message is printed only after a successful
    write, and a failed write is the failure of the whole call. *)
Theorem createBackendEnvFile_write_then_log {T : Type} (root : string)
    (opts : BackendOpts T) (log : list Call) :
  let w := WriteFile (path_join [root; ".env"]) (backendEnvContent opts) in
  let m := ConsoleLog "Created '.env' file. Please check the settings." in
  (fails log w = true ->
   createBackendEnvFile root opts log = ((log ++ [w])%list, inl (IOFailure w))) /\
  (fails log w = false ->
   fst (createBackendEnvFile root opts log) = (log ++ [w; m])%list).
Proof.
  cbv zeta. unfold createBackendEnvFile, bind, perform. cbv zeta.
  split; intros H; rewrite H; [reflexivity|].
  cbn [fst]. now rewrite <- app_assoc.
Qed.



End Node.
(** *** Basic facts about strings *)

Lemma append_nil_r (s : string) : s ++ "" = s.
Proof. induction s as [|a s IH]; simpl; [reflexivity | now rewrite IH]. Qed.

Lemma append_assoc (s t u : string) : (s ++ t) ++ u = s ++ (t ++ u).
Proof. induction s as [|a s IH]; simpl; [reflexivity | now rewrite IH]. Qed.

Lemma flat_app (xs ys : list string) : flat (xs ++ ys) = flat xs ++ flat ys.
Proof.
  induction xs as [|x xs IH]; simpl; [reflexivity|].
  now rewrite IH, append_assoc.
Qed.

(** *** The fold is a concatenation of the entries' texts *)

Lemma renderEnvVar_from (envVars : list EnvVar) (acc : string) :
  fold_left (fun prev env => (prev ++ descriptionText env) ++ nameText env) envVars acc
  = acc ++ flat (map entryText envVars).
Proof.
  revert acc; induction envVars as [|e es IH]; intros acc; simpl.
  - now rewrite append_nil_r.
  - rewrite IH. unfold entryText. now rewrite !append_assoc.
Qed.

Lemma renderEnvVar_flat (envVars : list EnvVar) :
  renderEnvVar envVars = flat (map entryText envVars).
Proof. unfold renderEnvVar. now rewrite renderEnvVar_from. Qed.

Lemma renderEnvVar_concat (xs ys : list EnvVar) :
  renderEnvVar (xs ++ ys) = renderEnvVar xs ++ renderEnvVar ys.
Proof. now rewrite !renderEnvVar_flat, map_app, flat_app. Qed.

Lemma renderEnvVar_one (e : EnvVar) : renderEnvVar [e] = entryText e.
Proof. rewrite renderEnvVar_flat. simpl. apply append_nil_r. Qed.

Lemma renderEnvVar_cons (e : EnvVar) (es : list EnvVar) :
  renderEnvVar (e :: es) = entryText e ++ renderEnvVar es.
Proof. now rewrite !renderEnvVar_flat. Qed.

Lemma renderEnvVar_middle (xs ys : list EnvVar) (e : EnvVar) :
  renderEnvVar (xs ++ e :: ys) = renderEnvVar xs ++ entryText e ++ renderEnvVar ys.
Proof. now rewrite renderEnvVar_concat, renderEnvVar_cons. Qed.

(** *** Splitting into lines *)

Lemma split_on_nonempty (c : ascii) (s : string) : split_on c s <> [].
Proof.
  destruct s as [|a s]; cbn [split_on]; [discriminate|].
  destruct (Ascii.eqb a c); [discriminate|].
  destruct (split_on c s); discriminate.
Qed.

Lemma lines_no_LF (s : string) : Forall (fun l => no_LF l = true) (lines s).
Proof.
  unfold lines. induction s as [|a s IH]; cbn [split_on].
  - repeat constructor.
  - destruct (Ascii.eqb a LF) eqn:Ea.
    + constructor; [reflexivity | exact IH].
    + destruct (split_on LF s) as [|l ls].
      * constructor; [|constructor]. cbn. now rewrite Ea.
      * inversion IH; subst. constructor; [|assumption]. cbn. now rewrite Ea.
Qed.

(** Joining the lines with line feeds gives the text back. *)
Lemma lines_join (s : string) : String.concat nl (lines s) = s.
Proof.
  unfold lines. induction s as [|a s IH]; cbn [split_on]; [reflexivity|].
  pose proof (split_on_nonempty LF s) as Hne.
  destruct (Ascii.eqb a LF) eqn:Ea.
  - apply Ascii.eqb_eq in Ea. subst a.
    destruct (split_on LF s) as [|l ls]; [contradiction|].
    rewrite <- IH. reflexivity.
  - destruct (split_on LF s) as [|l ls]; [contradiction|].
    rewrite <- IH. destruct ls; reflexivity.
Qed.

(** A line without line feed, followed by a line feed, is the first line. *)
Lemma lines_first (l rest : string) :
  no_LF l = true -> lines (l ++ nl ++ rest) = l :: lines rest.
Proof.
  unfold lines. induction l as [|a l IH]; intros H; cbn in *.
  - reflexivity.
  - apply andb_true_iff in H. destruct H as [Ha Hl].
    apply negb_true_iff in Ha. unfold LF in *. rewrite Ha.
    now rewrite (IH Hl).
Qed.

(** The [replaceAll] of the reducer turns the description into its first
    line and one comment line for each further line. *)
Lemma replaceAll_lines (d : string) :
  exists (l : string) (ls : list string),
    lines d = l :: ls /\
    replaceAll d LF (nl ++ "# ") ++ nl = l ++ nl ++ flat (map commentLine ls).
Proof.
  unfold lines. induction d as [|a d IH]; cbn [split_on replaceAll].
  - exists "", []. split; reflexivity.
  - destruct IH as [l [ls [El Er]]].
    destruct (Ascii.eqb a LF) eqn:Ea.
    + exists "", (l :: ls). rewrite El. split; [reflexivity|].
      rewrite append_assoc, Er. cbn [map flat fold_right].
      unfold commentLine. cbn. now rewrite !append_assoc.
    + exists (String a l), ls. rewrite El. split; [reflexivity|].
      change (String a (replaceAll d LF (nl ++ "# ") ++ nl)
              = String a (l ++ nl ++ flat (map commentLine ls))).
      now rewrite Er.
Qed.

Lemma descriptionText_lines (e : EnvVar) (d : string) :
  description e = Some d -> d <> "" ->
  descriptionText e = flat (map commentLine (lines d)).
Proof.
  intros Hd Hne. unfold descriptionText. rewrite Hd.
  destruct d as [|a d']; [contradiction|]. cbn [cond].
  destruct (replaceAll_lines (String a d')) as [l [ls [El Er]]].
  rewrite El, Er. cbn [map flat fold_right]. unfold commentLine at 1.
  cbn. now rewrite !append_assoc.
Qed.

(** *** Falsy fields *)

Lemma descriptionText_falsy (e : EnvVar) :
  truthy (description e) = false -> descriptionText e = "".
Proof.
  unfold descriptionText. destruct (description e) as [[|a s]|]; cbn; [reflexivity|discriminate|reflexivity].
Qed.

Lemma nameText_falsy (e : EnvVar) :
  truthy (name e) = false -> nameText e = "".
Proof.
  unfold nameText. destruct (name e) as [[|a s]|]; cbn; [reflexivity|discriminate|reflexivity].
Qed.

Lemma entryText_falsy (e : EnvVar) :
  truthy (name e) = false -> truthy (description e) = false -> entryText e = "".
Proof.
  intros Hn Hd. unfold entryText. now rewrite descriptionText_falsy, nameText_falsy.
Qed.

Lemma renderEnvVar_falsy (l : list EnvVar) :
  Forall (fun e => truthy (name e) = false /\ truthy (description e) = false) l ->
  renderEnvVar l = "".
Proof.
  induction 1 as [|e es [Hn Hd] _ IH]; [reflexivity|].
  now rewrite renderEnvVar_cons, IH, entryText_falsy.
Qed.

(** ** Properties of [renderEnvVar] *)

(** C1. For an entry with a truthy name [n], placed anywhere in the
    sequence: when the value is a non-empty string [v] the entry's
    assignment text is [n=v] followed by a blank line; when the value is
    absent or the empty string it is the commented placeholder [# n=]
    followed by a blank line. *)
Theorem render_name_value (xs ys : list EnvVar) (e : EnvVar) (n : string) :
  name e = Some n -> n <> "" ->
  (forall v, value e = Some v -> v <> "" ->
     renderEnvVar (xs ++ e :: ys)
     = renderEnvVar xs ++ descriptionText e ++ (n ++ "=" ++ v ++ nl ++ nl) ++ renderEnvVar ys)
  /\
  (value e = None \/ value e = Some "" ->
     renderEnvVar (xs ++ e :: ys)
     = renderEnvVar xs ++ descriptionText e ++ ("# " ++ n ++ "=" ++ nl ++ nl) ++ renderEnvVar ys).
Proof.
  intros Hn Hne. destruct n as [|a n']; [contradiction|].
  split.
  - intros v Hv Hvne. destruct v as [|b v']; [contradiction|].
    rewrite renderEnvVar_middle. unfold entryText, nameText.
    rewrite Hn, Hv. cbn [cond]. now rewrite !append_assoc.
  - intros Hv. rewrite renderEnvVar_middle. unfold entryText, nameText.
    rewrite Hn. destruct Hv as [Hv | Hv]; rewrite Hv; cbn [cond];
      now rewrite !append_assoc.
Qed.

(** C2. Rendering is a fold that concatenates the entries' texts in input
    order; it maps the concatenation of sequences to the concatenation of
    texts, so the text of an entry [a] that comes before an entry [b] lies
    entirely before the text of [b], and every entry is rendered, whether
    or not its name occurs twice. *)
Theorem render_concat_order :
  (forall l, renderEnvVar l = flat (map entryText l)) /\
  (forall xs ys, renderEnvVar (xs ++ ys) = renderEnvVar xs ++ renderEnvVar ys) /\
  (forall xs a ys b zs,
     renderEnvVar (xs ++ a :: ys ++ b :: zs)
     = renderEnvVar xs ++ renderEnvVar [a] ++ renderEnvVar ys
       ++ renderEnvVar [b] ++ renderEnvVar zs).
Proof.
  split; [exact renderEnvVar_flat|].
  split; [exact renderEnvVar_concat|].
  intros xs a ys b zs.
  now rewrite !renderEnvVar_middle, !renderEnvVar_one.
Qed.

(** C5. For an entry with a truthy description [d], placed anywhere in the
    sequence, the description is rendered as the lines of [d] (split on
    every line feed; there is at least one, none contains a line feed),
    each one prefixed with [# ] and ended by a line feed. *)
Theorem render_description_lines (xs ys : list EnvVar) (e : EnvVar) (d : string) :
  description e = Some d -> d <> "" ->
  renderEnvVar (xs ++ e :: ys)
  = renderEnvVar xs ++ flat (map commentLine (lines d)) ++ nameText e ++ renderEnvVar ys
  /\ lines d <> []
  /\ Forall (fun l => no_LF l = true) (lines d)
  /\ String.concat nl (lines d) = d.
Proof.
  intros Hd Hne. repeat split.
  - rewrite renderEnvVar_middle. unfold entryText.
    rewrite (descriptionText_lines e d Hd Hne). now rewrite !append_assoc.
  - apply split_on_nonempty.
  - apply lines_no_LF.
  - apply lines_join.
Qed.

(** C6. A sequence whose entries all have no name and no description
    renders to the empty string. *)
Theorem render_nameless_empty (l : list EnvVar) :
  Forall (fun e => name e = None /\ description e = None) l ->
  renderEnvVar l = "".
Proof.
  intros H. apply renderEnvVar_falsy.
  eapply Forall_impl; [|exact H].
  intros e [Hn Hd]. now rewrite Hn, Hd.
Qed.

(** C9. Name and description are tested by truthiness: an entry whose
    description is the empty string renders as the same entry without
    description (no comment line), and an entry whose name is the empty
    string renders as the same entry without name (neither assignment nor
    placeholder). *)
Theorem render_empty_string_as_absent :
  (forall xs ys n v,
     renderEnvVar (xs ++ mkEnvVar n (Some "") v :: ys)
     = renderEnvVar (xs ++ mkEnvVar n None v :: ys)) /\
  (forall xs ys d v,
     renderEnvVar (xs ++ mkEnvVar (Some "") d v :: ys)
     = renderEnvVar (xs ++ mkEnvVar None d v :: ys)) /\
  (forall n v, descriptionText (mkEnvVar n (Some "") v) = "") /\
  (forall d v, nameText (mkEnvVar (Some "") d v) = "").
Proof.
  repeat split; intros; try reflexivity; now rewrite !renderEnvVar_middle.
Qed.

(** ** Properties of the env-file assembly *)

Lemma getVectorDBEnvs_unrecognized (v : string) :
  v <> "mongo" -> v <> "pg" -> v <> "pinecone" -> v <> "milvus" ->
  getVectorDBEnvs v = [].
Proof.
  intros H1 H2 H3 H4. unfold getVectorDBEnvs.
  apply String.eqb_neq in H1, H2, H3, H4.
  now rewrite H1, H2, H3, H4.
Qed.

(** C7. The four recognised identifiers each select a fixed list of
    entries (given here by their names, in order), and every other
    identifier selects the empty list; [getVectorDBEnvs] is total, so no
    identifier raises an error. *)
Theorem getVectorDBEnvs_closed_enumeration :
  map name (getVectorDBEnvs "mongo")
  = [Some "MONGO_URI"; Some "MONGODB_DATABASE"; Some "MONGODB_VECTORS";
     Some "MONGODB_VECTOR_INDEX"] /\
  map name (getVectorDBEnvs "pg") = [Some "PG_CONNECTION_STRING"] /\
  map name (getVectorDBEnvs "pinecone")
  = [Some "PINECONE_API_KEY"; Some "PINECONE_ENVIRONMENT"; Some "PINECONE_INDEX_NAME"] /\
  map name (getVectorDBEnvs "milvus")
  = [Some "MILVUS_ADDRESS"; Some "MILVUS_COLLECTION"; Some "MILVUS_USERNAME";
     Some "MILVUS_PASSWORD"] /\
  (forall v, v <> "mongo" -> v <> "pg" -> v <> "pinecone" -> v <> "milvus" ->
             getVectorDBEnvs v = []).
Proof.
  repeat split; try reflexivity. exact getVectorDBEnvs_unrecognized.
Qed.

Lemma backendEnvVars_head {T : Type} (opts : BackendOpts T) :
  exists rest,
    backendEnvVars opts
    = mkEnvVar (Some "MODEL") (Some "The name of LLM model to use.")
        (Some (or_else (model opts) "gpt-3.5-turbo")) :: rest.
Proof.
  unfold backendEnvVars, defaultEnvs, baseEnvs.
  destruct (framework_is opts "fastapi"); eexists; cbn [app]; reflexivity.
Qed.

(** C8. When the options carry no model, the MODEL entry of the backend
    assembly has the value [gpt-3.5-turbo], and the rendered content has
    the line [MODEL=gpt-3.5-turbo] (right after the entry's comment
    line), whatever the other options are. *)
Theorem backend_model_default {T : Type} (opts : BackendOpts T) :
  model opts = None ->
  (exists rest,
     backendEnvVars opts
     = mkEnvVar (Some "MODEL") (Some "The name of LLM model to use.")
         (Some "gpt-3.5-turbo") :: rest) /\
  (exists rest,
     backendEnvContent opts
     = "# The name of LLM model to use." ++ nl ++ "MODEL=gpt-3.5-turbo" ++ nl ++ nl ++ rest) /\
  has_line "MODEL=gpt-3.5-turbo" (backendEnvContent opts).
Proof.
  intros Hm. destruct (backendEnvVars_head opts) as [rest Hr].
  rewrite Hm in Hr. cbn [or_else cond] in Hr.
  assert (Hc : backendEnvContent opts
               = "# The name of LLM model to use." ++ nl ++ "MODEL=gpt-3.5-turbo" ++ nl
                 ++ nl ++ renderEnvVar rest).
  { unfold backendEnvContent. rewrite Hr, renderEnvVar_cons. reflexivity. }
  split; [now exists rest|]. split; [now exists (renderEnvVar rest)|].
  unfold has_line. rewrite Hc.
  rewrite lines_first by reflexivity. rewrite lines_first by reflexivity.
  right. left. reflexivity.
Qed.

Lemma framework_is_false {T : Type} (opts : BackendOpts T) (s : string) :
  framework opts <> Some s -> framework_is opts s = false.
Proof.
  unfold framework_is. destruct (framework opts) as [f|]; [|reflexivity].
  intros H. apply String.eqb_neq. intros ->. now apply H.
Qed.

(** C10. For a framework that is neither ["fastapi"] nor ["nextjs"]
    (an absent one included), the backend assembly appends the single
    empty entry to the default set; that entry renders to nothing, so the
    content is the render of the base entries followed by the render of
    the vector-database block. *)
Theorem backend_other_framework {T : Type} (opts : BackendOpts T) :
  framework opts <> Some "fastapi" -> framework opts <> Some "nextjs" ->
  backendEnvVars opts = (defaultEnvs opts ++ [emptyEnvVar])%list /\
  renderEnvVar [emptyEnvVar] = "" /\
  backendEnvContent opts
  = renderEnvVar (baseEnvs opts) ++ renderEnvVar (vectorDbEnvs opts).
Proof.
  intros Hf Hn.
  assert (E : backendEnvVars opts = (defaultEnvs opts ++ [emptyEnvVar])%list).
  { unfold backendEnvVars, otherFrameworkEnv.
    now rewrite (framework_is_false opts _ Hf), (framework_is_false opts _ Hn). }
  split; [exact E|]. split; [reflexivity|].
  unfold backendEnvContent. rewrite E. unfold defaultEnvs.
  rewrite !renderEnvVar_concat.
  change (renderEnvVar [emptyEnvVar]) with "".
  now rewrite append_assoc, append_nil_r.
Qed.

(** ** The theorems at concrete inputs *)

Lemma render_name_value_witness :
  renderEnvVar [mkEnvVar (Some "X") None (Some "Y")] = "X=Y" ++ nl ++ nl /\
  renderEnvVar [mkEnvVar (Some "X") None None] = "# X=" ++ nl ++ nl /\
  renderEnvVar [mkEnvVar (Some "X") None (Some "")] = "# X=" ++ nl ++ nl.
Proof.
  split; [|split].
  - apply (proj1 (render_name_value [] [] (mkEnvVar (Some "X") None (Some "Y")) "X"
                    eq_refl ltac:(discriminate)) "Y" eq_refl ltac:(discriminate)).
  - apply (proj2 (render_name_value [] [] (mkEnvVar (Some "X") None None) "X"
                    eq_refl ltac:(discriminate)) (or_introl eq_refl)).
  - apply (proj2 (render_name_value [] [] (mkEnvVar (Some "X") None (Some "")) "X"
                    eq_refl ltac:(discriminate)) (or_intror eq_refl)).
Defined.

Lemma render_description_lines_witness :
  renderEnvVar [mkEnvVar None (Some ("a" ++ nl ++ "b")) None]
  = "# a" ++ nl ++ "# b" ++ nl.
Proof.
  apply (proj1 (render_description_lines [] [] (mkEnvVar None (Some ("a" ++ nl ++ "b")) None)
                  ("a" ++ nl ++ "b") eq_refl ltac:(discriminate))).
Defined.

Lemma render_nameless_empty_witness :
  renderEnvVar [emptyEnvVar; mkEnvVar None None (Some "v"); emptyEnvVar] = "".
Proof.
  apply render_nameless_empty.
  repeat constructor.
Defined.

Lemma getVectorDBEnvs_closed_enumeration_witness :
  getVectorDBEnvs "chroma" = [] /\ getVectorDBEnvs "none" = [] /\ getVectorDBEnvs "Mongo" = [].
Proof.
  pose proof getVectorDBEnvs_closed_enumeration as [_ [_ [_ [_ H]]]].
  repeat split; apply H; discriminate.
Defined.

Lemma backend_model_default_witness :
  has_line "MODEL=gpt-3.5-turbo"
    (backendEnvContent
       (mkBackendOpts (TemplateDataSource := unit)
          (Some "key") None (Some "pg") None None (Some "fastapi") None (Some 3000%Z))).
Proof.
  apply backend_model_default. reflexivity.
Defined.

Lemma backend_other_framework_witness :
  backendEnvContent
    (mkBackendOpts (TemplateDataSource := unit)
       None None (Some "pg") (Some "m") None (Some "express") None None)
  = renderEnvVar
      [ mkEnvVar (Some "MODEL") (Some "The name of LLM model to use.") (Some "m");
        mkEnvVar (Some "TSI_API_KEY") (Some "The T-Systems API key to use.") None;
        mkEnvVar (Some "TSI_API_BASE_URL") (Some "The T-Systems API base URL.")
          (Some "https://llm-server.llmhub.t-systems.net/v2");
        mkEnvVar (Some "TSI_EMBED_API_BASE_URL")
          (Some "The T-Systems embedding API base URL.")
          (Some "https://llm-server.llmhub.t-systems.net/v2");
        mkEnvVar (Some "LLAMA_CLOUD_API_KEY") (Some "The Llama Cloud API key.") None ]
    ++ renderEnvVar (getVectorDBEnvs "pg").
Proof.
  apply backend_other_framework; discriminate.
Defined.

Lemma copy_invalid_argument_witness :
  copy Posix.join Posix.resolve Posix.dirname Posix.basename
    (fun _ _ _ => ["a.txt"]) (fun _ _ => false)
    (Many []) (Some "out") None []
  = ([], inl (TypeError "`src` and `dest` are required")) /\
  copy Posix.join Posix.resolve Posix.dirname Posix.basename
    (fun _ _ _ => ["a.txt"]) (fun _ _ => false)
    (Many ["*.txt"]) (Some "") None []
  = ([], inl (TypeError "`src` and `dest` are required")).
Proof.
  split; apply copy_invalid_argument.
  - left. reflexivity.
  - right. right. reflexivity.
Defined.

Lemma copy_destination_path_witness :
  copy Posix.join Posix.resolve Posix.dirname Posix.basename
    (fun _ _ _ => ["a/b.txt"]) (fun _ _ => false)
    (One "**") (Some "out") (Some (mkCopyOption None (Some toUpperCase) None)) []
  = ([Glob ["**"] None; Mkdir "out/a"; CopyFile "a/b.txt" "out/a/B.TXT"], inr [tt]).
Proof.
  etransitivity.
  - apply copy_destination_path; [discriminate | discriminate | reflexivity].
  - reflexivity.
Defined.

(** The cases of the spec's list of testable properties, by evaluation. *)

Example copy_parents_default :
  fst (copy Posix.join Posix.resolve Posix.dirname Posix.basename
         (fun _ _ _ => ["a/b.txt"; "a/c.txt"]) (fun _ _ => false)
         (One "a/*") (Some "out") None [])
  = [Glob ["a/*"] None;
     Mkdir "out/a"; CopyFile "a/b.txt" "out/a/b.txt";
     Mkdir "out/a"; CopyFile "a/c.txt" "out/a/c.txt"].
Proof. reflexivity. Qed.

Example copy_parents_false :
  fst (copy Posix.join Posix.resolve Posix.dirname Posix.basename
         (fun _ _ _ => ["a/b.txt"; "a/c.txt"]) (fun _ _ => false)
         (One "a/*") (Some "out") (Some (mkCopyOption None None (Some false))) [])
  = [Glob ["a/*"] None;
     Mkdir "out"; CopyFile "a/b.txt" "out/b.txt";
     Mkdir "out"; CopyFile "a/c.txt" "out/c.txt"].
Proof. reflexivity. Qed.

Example copy_no_match :
  copy Posix.join Posix.resolve Posix.dirname Posix.basename
    (fun _ _ _ => []) (fun _ _ => false)
    (One "missing") (Some "out") None []
  = ([Glob ["missing"] None], inr []).
Proof. reflexivity. Qed.

Example copy_mkdir_failure :
  copy Posix.join Posix.resolve Posix.dirname Posix.basename
    (fun _ _ _ => ["a/b.txt"; "c.txt"])
    (fun _ c => match c with Mkdir "out/a" => true | _ => false end)
    (One "**") (Some "out") None []
  = ([Glob ["**"] None; Mkdir "out/a"; Mkdir "out"; CopyFile "c.txt" "out/c.txt"],
     inl (IOFailure (Mkdir "out/a"))).
Proof. reflexivity. Qed.

Example render_duplicate_names :
  renderEnvVar [mkEnvVar (Some "X") None (Some "1"); mkEnvVar (Some "X") None (Some "2")]
  = "X=1" ++ nl ++ nl ++ "X=2" ++ nl ++ nl.
Proof. reflexivity. Qed.

Example render_value_without_name :
  renderEnvVar [mkEnvVar None None (Some "v")] = "".
Proof. reflexivity. Qed.

Example backend_fastapi_port_default :
  has_line "APP_PORT=8000"
    (backendEnvContent
       (mkBackendOpts (TemplateDataSource := unit)
          None None None None None (Some "fastapi") None None)).
Proof. vm_compute. tauto. Qed.

(** ** The rendered file, line by line *)

Lemma lines_app_nl (a b : string) : lines (a ++ nl ++ b) = (lines a ++ lines b)%list.
Proof.
  unfold lines. induction a as [|c a IH]; [reflexivity|].
  change (String c a ++ nl ++ b) with (String c (a ++ nl ++ b)).
  cbn [split_on]. rewrite IH.
  destruct (Ascii.eqb c LF); [reflexivity|].
  pose proof (split_on_nonempty LF a) as Hne.
  destruct (split_on LF a) as [|l ls]; [contradiction|]. reflexivity.
Qed.

Lemma lines_single (l : string) : no_LF l = true -> lines l = [l].
Proof.
  unfold lines. induction l as [|c l IH]; intros H; [reflexivity|].
  cbn in H. apply andb_true_iff in H. destruct H as [Hc Hl].
  apply negb_true_iff in Hc. cbn [split_on]. rewrite Hc, (IH Hl). reflexivity.
Qed.

Lemma no_LF_app (a b : string) : no_LF (a ++ b) = no_LF a && no_LF b.
Proof.
  induction a as [|c a IH]; [reflexivity|].
  cbn. rewrite IH. now rewrite andb_assoc.
Qed.

Lemma lines_of_terminated (ls : list string) :
  Forall (fun l => no_LF l = true) ls ->
  lines (flat (map (fun l => l ++ nl) ls)) = (ls ++ [""])%list.
Proof.
  induction 1 as [|l ls Hl _ IH]; [reflexivity|].
  cbn [map flat fold_right]. fold (flat (map (fun l => l ++ nl) ls)).
  rewrite append_assoc, (lines_first _ _ Hl), IH. reflexivity.
Qed.

Lemma line_terminated_app (a b : string) :
  line_terminated a -> line_terminated b -> line_terminated (a ++ b).
Proof.
  intros Ha [-> | [q ->]].
  - now rewrite append_nil_r.
  - right. exists (a ++ q). now rewrite append_assoc.
Qed.

Lemma descriptionText_terminated (e : EnvVar) : line_terminated (descriptionText e).
Proof.
  unfold descriptionText. destruct (description e) as [[|c d]|]; cbn [cond];
    [now left | | now left].
  right. exists ("# " ++ replaceAll (String c d) LF (nl ++ "# ")).
  now rewrite append_assoc.
Qed.

Lemma nameText_terminated (e : EnvVar) : line_terminated (nameText e).
Proof.
  unfold nameText. destruct (name e) as [[|c n]|]; cbn [cond]; [now left | | now left].
  right. destruct (value e) as [[|b v]|]; cbn [cond].
  - exists ("# " ++ String c n ++ "=" ++ nl). now rewrite !append_assoc.
  - exists (String c n ++ "=" ++ String b v ++ nl). now rewrite !append_assoc.
  - exists ("# " ++ String c n ++ "=" ++ nl). now rewrite !append_assoc.
Qed.

Lemma renderEnvVar_terminated (l : list EnvVar) : line_terminated (renderEnvVar l).
Proof.
  induction l as [|e es IH]; [now left|].
  rewrite renderEnvVar_cons. unfold entryText.
  auto using line_terminated_app, descriptionText_terminated, nameText_terminated.
Qed.

(** A line placed after a terminated text and followed by a line feed is a
    line of the whole. *)
Lemma has_line_between (pre l post : string) :
  line_terminated pre -> no_LF l = true -> has_line l (pre ++ l ++ nl ++ post).
Proof.
  intros [-> | [p ->]] Hl; unfold has_line.
  - cbn [append]. rewrite (lines_first _ _ Hl). now left.
  - rewrite append_assoc, lines_app_nl, (lines_first _ _ Hl).
    apply in_or_app. right. now left.
Qed.

Lemma nameText_line (e : EnvVar) (n : string) :
  name e = Some n -> n <> "" ->
  nameText e = cond (value e) (fun v => n ++ "=" ++ v) ("# " ++ n ++ "=") ++ nl ++ nl.
Proof.
  intros Hn Hne. unfold nameText. rewrite Hn.
  destruct n as [|c n']; [contradiction|]. cbn [cond].
  destruct (value e) as [[|b v]|]; cbn [cond]; now rewrite ?append_assoc.
Qed.

(** The line of a named entry is a line of the rendered file. *)
Lemma renderEnvVar_entry_line (l : list EnvVar) (e : EnvVar) (n : string) :
  In e l -> name e = Some n -> n <> "" ->
  no_LF (cond (value e) (fun v => n ++ "=" ++ v) ("# " ++ n ++ "=")) = true ->
  has_line (cond (value e) (fun v => n ++ "=" ++ v) ("# " ++ n ++ "=")) (renderEnvVar l).
Proof.
  intros Hin Hn Hne Hlf.
  apply in_split in Hin. destruct Hin as [xs [ys ->]].
  rewrite renderEnvVar_middle. unfold entryText.
  rewrite (nameText_line e n Hn Hne).
  set (L := cond (value e) (fun v => n ++ "=" ++ v) ("# " ++ n ++ "=")) in *.
  assert (E : renderEnvVar xs ++ (descriptionText e ++ L ++ nl ++ nl) ++ renderEnvVar ys
              = (renderEnvVar xs ++ descriptionText e) ++ L ++ nl ++ (nl ++ renderEnvVar ys))
    by now rewrite !append_assoc.
  rewrite E. apply has_line_between; [|exact Hlf].
  auto using line_terminated_app, renderEnvVar_terminated, descriptionText_terminated.
Qed.

Lemma entryText_lines (e : EnvVar) :
  entryText e = flat (map (fun l => l ++ nl) (entryLines e)).
Proof.
  unfold entryText, entryLines. rewrite map_app, flat_app. f_equal.
  - destruct (description e) as [[|c d]|] eqn:Ed.
    + unfold descriptionText. now rewrite Ed.
    + rewrite (descriptionText_lines e (String c d) Ed) by discriminate.
      cbn [cond]. rewrite map_map. reflexivity.
    + unfold descriptionText. now rewrite Ed.
  - unfold nameText. destruct (name e) as [[|c n]|]; [reflexivity| |reflexivity].
    cbn [cond]. destruct (value e) as [[|b v]|]; cbn [cond map flat fold_right];
      now rewrite ?append_assoc, ?append_nil_r.
Qed.

Lemma renderEnvVar_lines_text (l : list EnvVar) :
  renderEnvVar l = flat (map (fun x => x ++ nl) (flat_map entryLines l)).
Proof.
  induction l as [|e es IH]; [reflexivity|].
  rewrite renderEnvVar_cons, IH, entryText_lines.
  cbn [flat_map]. now rewrite map_app, flat_app.
Qed.

Lemma entryLines_no_LF (e : EnvVar) :
  LF_free (name e) = true -> LF_free (value e) = true ->
  Forall (fun l => no_LF l = true) (entryLines e).
Proof.
  intros Hn Hv. unfold entryLines. apply Forall_app. split.
  - destruct (description e) as [[|c d]|]; cbn [cond]; [constructor| |constructor].
    apply Forall_map. eapply Forall_impl; [|apply lines_no_LF].
    intros a Ha. cbn. exact Ha.
  - destruct (name e) as [[|c n]|]; cbn [cond]; [constructor| |constructor].
    cbn [LF_free] in Hn.
    constructor; [|repeat constructor].
    destruct (value e) as [[|b v]|]; cbn [cond LF_free] in *;
      rewrite ?no_LF_app, ?Hn, ?Hv; reflexivity.
Qed.

(** The lines of the rendered file are the entries' lines, in order,
    followed by the empty piece after the last line feed. *)
Lemma renderEnvVar_lines (l : list EnvVar) :
  Forall (fun e => LF_free (name e) = true /\ LF_free (value e) = true) l ->
  lines (renderEnvVar l) = (flat_map entryLines l ++ [""])%list.
Proof.
  intros H. rewrite renderEnvVar_lines_text. apply lines_of_terminated.
  induction H as [|e es [Hn Hv] _ IH]; [constructor|].
  cbn [flat_map]. apply Forall_app. split; [now apply entryLines_no_LF | exact IH].
Qed.

(** X1. When no name and no value contains a line feed, every line of the
    rendered file is blank, a comment starting with [# ], or the
    assignment [name=value] of an entry whose name and value are both
    non-empty. *)
Theorem render_line_format (l : list EnvVar) (line : string) :
  Forall (fun e => LF_free (name e) = true /\ LF_free (value e) = true) l ->
  has_line line (renderEnvVar l) ->
  line = "" \/ is_comment line = true \/
  exists e n v, In e l /\ name e = Some n /\ value e = Some v /\
                n <> "" /\ v <> "" /\ line = n ++ "=" ++ v.
Proof.
  intros H Hl. unfold has_line in Hl. rewrite (renderEnvVar_lines l H) in Hl.
  apply in_app_or in Hl. destruct Hl as [Hl | [<- | []]]; [|now left].
  apply in_flat_map in Hl. destruct Hl as [e [He Hl]].
  unfold entryLines in Hl. apply in_app_or in Hl. destruct Hl as [Hl | Hl].
  - right. left. destruct (description e) as [[|c d]|]; cbn [cond] in Hl; try contradiction.
    apply in_map_iff in Hl. destruct Hl as [x [<- _]]. reflexivity.
  - destruct (name e) as [[|c n]|] eqn:En; cbn [cond] in Hl; try contradiction.
    destruct Hl as [<- | [<- | []]]; [|now left].
    destruct (value e) as [[|b v]|] eqn:Ev; cbn [cond].
    + right. left. reflexivity.
    + right. right. exists e, (String c n), (String b v).
      repeat split; try assumption; discriminate.
    + right. left. reflexivity.
Qed.

(** X2. An entry with a non-empty name [n] free of line feeds always shows
    in the file: as the line [n=v] when its value [v] is non-empty (and
    free of line feeds), as the line [# n=] when its value is absent or
    empty, whatever the other entries are. *)
Theorem render_entry_has_line (l : list EnvVar) (e : EnvVar) (n : string) :
  In e l -> name e = Some n -> n <> "" -> no_LF n = true ->
  (forall v, value e = Some v -> v <> "" -> no_LF v = true ->
             has_line (n ++ "=" ++ v) (renderEnvVar l)) /\
  (truthy (value e) = false -> has_line ("# " ++ n ++ "=") (renderEnvVar l)).
Proof.
  intros Hin Hn Hne Hlf. split.
  - intros v Hv Hvne Hvlf.
    pose proof (renderEnvVar_entry_line l e n Hin Hn Hne) as H.
    rewrite Hv in H. destruct v as [|b v']; [contradiction|]. cbn [cond] in H.
    apply H. now rewrite !no_LF_app, Hlf, Hvlf.
  - intros Hv.
    pose proof (renderEnvVar_entry_line l e n Hin Hn Hne) as H.
    destruct (value e) as [[|b v]|]; cbn [cond truthy] in *; try discriminate;
      apply H; cbn; now rewrite !no_LF_app, Hlf.
Qed.

Lemma entryText_empty_iff (e : EnvVar) : entryText e = "" <-> renders e = false.
Proof.
  unfold entryText, renders, descriptionText, nameText.
  destruct (name e) as [[|c n]|], (description e) as [[|a d]|];
    cbn [cond truthy orb]; split; intros H; try reflexivity; try discriminate.
  all: destruct (value e) as [[|b v]|]; discriminate.
Qed.

Lemma append_empty (a b : string) : a ++ b = "" -> a = "" /\ b = "".
Proof. destruct a; [now split | discriminate]. Qed.

(** X3. The rendered text is empty exactly when no entry has a truthy name
    or a truthy description. *)
Theorem render_empty_iff (l : list EnvVar) :
  renderEnvVar l = "" <-> Forall (fun e => renders e = false) l.
Proof.
  induction l as [|e es IH]; [split; [constructor | reflexivity]|].
  rewrite renderEnvVar_cons. split.
  - intros H. apply append_empty in H. destruct H as [He Hes].
    constructor; [now apply entryText_empty_iff | now apply IH].
  - intros H. inversion H as [|? ? He Hes]; subst.
    apply entryText_empty_iff in He. apply IH in Hes. now rewrite He, Hes.
Qed.

(** X4. Entries that have neither a truthy name nor a truthy description
    can be dropped from the sequence without changing the rendered
    text. *)
Theorem render_filter_renders (l : list EnvVar) :
  renderEnvVar (filter renders l) = renderEnvVar l.
Proof.
  induction l as [|e es IH]; [reflexivity|].
  cbn [filter]. destruct (renders e) eqn:Er.
  - now rewrite !renderEnvVar_cons, IH.
  - apply entryText_empty_iff in Er. now rewrite renderEnvVar_cons, Er, IH.
Qed.

(** ** The lines of the assembled files *)

Lemma render_assignment_line (l : list EnvVar) (n v : string) (d : option string) :
  In (mkEnvVar (Some n) d (Some v)) l ->
  n <> "" -> v <> "" -> no_LF n = true -> no_LF v = true ->
  has_line (n ++ "=" ++ v) (renderEnvVar l).
Proof.
  intros Hin Hn Hv Ln Lv.
  pose proof (renderEnvVar_entry_line l _ n Hin eq_refl Hn) as H.
  destruct v as [|b v']; [contradiction|]. cbn [value cond] in H.
  apply H. now rewrite !no_LF_app, Ln, Lv.
Qed.

Lemma render_placeholder_line (l : list EnvVar) (n : string) (d v : option string) :
  In (mkEnvVar (Some n) d v) l ->
  n <> "" -> truthy v = false -> no_LF n = true ->
  has_line ("# " ++ n ++ "=") (renderEnvVar l).
Proof.
  intros Hin Hn Hv Ln.
  pose proof (renderEnvVar_entry_line l _ n Hin eq_refl Hn) as H.
  cbn [value] in H.
  destruct v as [[|b v']|]; cbn [cond truthy] in *; try discriminate;
    apply H; cbn; now rewrite !no_LF_app, Ln.
Qed.







Lemma In_baseEnvs_backend {T : Type} (opts : BackendOpts T) (e : EnvVar) :
  In e (baseEnvs opts) -> In e (backendEnvVars opts).
Proof.
  intros H. unfold backendEnvVars, defaultEnvs.
  destruct (framework_is opts "fastapi"); rewrite <- app_assoc; apply in_or_app; now left.
Qed.



(** X11. The two API keys of the backend file: a non-empty key without
    line feed is written as an assignment, an absent or empty key leaves
    the commented placeholder, for every framework and vector
    database. *)
Theorem backend_api_key_lines {T : Type} (opts : BackendOpts T) :
  (forall k, openAiKey opts = Some k -> k <> "" -> no_LF k = true ->
             has_line ("TSI_API_KEY=" ++ k) (backendEnvContent opts)) /\
  (truthy (openAiKey opts) = false ->
   has_line "# TSI_API_KEY=" (backendEnvContent opts)) /\
  (forall k, llamaCloudKey opts = Some k -> k <> "" -> no_LF k = true ->
             has_line ("LLAMA_CLOUD_API_KEY=" ++ k) (backendEnvContent opts)) /\
  (truthy (llamaCloudKey opts) = false ->
   has_line "# LLAMA_CLOUD_API_KEY=" (backendEnvContent opts)).
Proof.
  unfold backendEnvContent. repeat split.
  - intros k Hk Hne Hlf.
    apply (render_assignment_line _ "TSI_API_KEY" k (Some "The T-Systems API key to use."));
      try discriminate; try reflexivity; try assumption.
    apply In_baseEnvs_backend. unfold baseEnvs. rewrite Hk. cbn. tauto.
  - intros Hk.
    apply (render_placeholder_line _ "TSI_API_KEY" (Some "The T-Systems API key to use.")
             (openAiKey opts)); try discriminate; try reflexivity; try assumption.
    apply In_baseEnvs_backend. cbn. tauto.
  - intros k Hk Hne Hlf.
    apply (render_assignment_line _ "LLAMA_CLOUD_API_KEY" k (Some "The Llama Cloud API key."));
      try discriminate; try reflexivity; try assumption.
    apply In_baseEnvs_backend. unfold baseEnvs. rewrite Hk. cbn. tauto.
  - intros Hk.
    apply (render_placeholder_line _ "LLAMA_CLOUD_API_KEY" (Some "The Llama Cloud API key.")
             (llamaCloudKey opts)); try discriminate; try reflexivity; try assumption.
    apply In_baseEnvs_backend. cbn. tauto.
Qed.


(** X13. Unless the framework is ["fastapi"], the backend file does not
    depend on the port, the embedding model or the data sources: two
    option records that agree on the other fields give the same
    content. *)
Theorem backend_content_ignores_fastapi_options {T U : Type}
    (opts : BackendOpts T) (opts' : BackendOpts U) :
  framework opts <> Some "fastapi" ->
  openAiKey opts = openAiKey opts' -> llamaCloudKey opts = llamaCloudKey opts' ->
  vectorDb opts = vectorDb opts' -> model opts = model opts' ->
  framework opts = framework opts' ->
  backendEnvContent opts = backendEnvContent opts'.
Proof.
  intros Hf Hk Hl Hv Hm Hfr.
  assert (Hf' : framework opts' <> Some "fastapi") by now rewrite <- Hfr.
  unfold backendEnvContent, backendEnvVars.
  rewrite (framework_is_false opts _ Hf), (framework_is_false opts' _ Hf').
  unfold defaultEnvs, baseEnvs, vectorDbEnvs, otherFrameworkEnv, framework_is.
  now rewrite Hk, Hl, Hv, Hm, Hfr.
Qed.

(** X14. The vector-database block of the backend assembly is non-empty
    exactly when the selector is one of the four recognised
    identifiers. *)
Theorem vectorDbEnvs_nonempty_iff {T : Type} (opts : BackendOpts T) :
  vectorDbEnvs opts <> [] <->
  (vectorDb opts = Some "mongo" \/ vectorDb opts = Some "pg" \/
   vectorDb opts = Some "pinecone" \/ vectorDb opts = Some "milvus").
Proof.
  unfold vectorDbEnvs. split.
  - intros H. destruct (vectorDb opts) as [[|c s]|]; cbn [cond] in H;
      try (exfalso; now apply H).
    unfold getVectorDBEnvs in H.
    destruct (String.eqb_spec (String c s) "mongo") as [->|_]; [now left|].
    destruct (String.eqb_spec (String c s) "pg") as [->|_]; [now right; left|].
    destruct (String.eqb_spec (String c s) "pinecone") as [->|_]; [now right; right; left|].
    destruct (String.eqb_spec (String c s) "milvus") as [->|_]; [now right; right; right|].
    exfalso. now apply H.
  - intros [H | [H | [H | H]]]; rewrite H; discriminate.
Qed.

(** X15. The frontend file has no default model: an absent or empty model
    leaves the placeholders [# MODEL=] and [# NEXT_PUBLIC_MODEL=], a
    non-empty model without line feed is assigned to both names. *)
Theorem frontend_model_lines (opts : FrontendOpts) :
  (truthy (fe_model opts) = false ->
   has_line "# MODEL=" (frontendEnvContent opts) /\
   has_line "# NEXT_PUBLIC_MODEL=" (frontendEnvContent opts)) /\
  (forall m, fe_model opts = Some m -> m <> "" -> no_LF m = true ->
   has_line ("MODEL=" ++ m) (frontendEnvContent opts) /\
   has_line ("NEXT_PUBLIC_MODEL=" ++ m) (frontendEnvContent opts)).
Proof.
  unfold frontendEnvContent. split.
  - intros Hm. split.
    + apply (render_placeholder_line _ "MODEL" (Some "The OpenAI model to use.")
               (fe_model opts)); try discriminate; try reflexivity; try assumption.
      cbn. tauto.
    + apply (render_placeholder_line _ "NEXT_PUBLIC_MODEL"
               (Some "The OpenAI model to use (hardcode to front-end artifact).")
               (fe_model opts)); try discriminate; try reflexivity; try assumption.
      cbn. tauto.
  - intros m Hm Hne Hlf. split.
    + apply (render_assignment_line _ "MODEL" m (Some "The OpenAI model to use."));
        try discriminate; try reflexivity; try assumption.
      unfold defaultFrontendEnvs. rewrite Hm. cbn. tauto.
    + apply (render_assignment_line _ "NEXT_PUBLIC_MODEL" m
               (Some "The OpenAI model to use (hardcode to front-end artifact)."));
        try discriminate; try reflexivity; try assumption.
      unfold defaultFrontendEnvs. rewrite Hm. cbn. tauto.
Qed.

(** X16. The chat endpoint of the frontend file is the custom path when
    one is given (non-empty, without line feed) and
    [http://localhost:8000/api/chat] when it is absent or empty. *)
Theorem frontend_chat_api_line (opts : FrontendOpts) :
  (truthy (customApiPath opts) = false ->
   has_line "NEXT_PUBLIC_CHAT_API=http://localhost:8000/api/chat" (frontendEnvContent opts)) /\
  (forall p, customApiPath opts = Some p -> p <> "" -> no_LF p = true ->
   has_line ("NEXT_PUBLIC_CHAT_API=" ++ p) (frontendEnvContent opts)).
Proof.
  unfold frontendEnvContent. split.
  - intros Hp.
    apply (render_assignment_line _ "NEXT_PUBLIC_CHAT_API" "http://localhost:8000/api/chat"
             (Some "The backend API for chat endpoint."));
      try discriminate; try reflexivity.
    unfold defaultFrontendEnvs.
    destruct (customApiPath opts) as [[|c s]|]; cbn in *; try discriminate; tauto.
  - intros p Hp Hne Hlf.
    apply (render_assignment_line _ "NEXT_PUBLIC_CHAT_API" p
             (Some "The backend API for chat endpoint."));
      try discriminate; try reflexivity; try assumption.
    unfold defaultFrontendEnvs. rewrite Hp.
    destruct p as [|c s]; [contradiction|]. cbn. tauto.
Qed.

Lemma framework_is_iff {T : Type} (opts : BackendOpts T) (s : string) :
  framework_is opts s = true <-> framework opts = Some s.
Proof.
  unfold framework_is. destruct (framework opts) as [f|].
  - rewrite String.eqb_eq. split; [now intros -> | now intros [= ->]].
  - split; discriminate.
Qed.

Lemma defaultEnvs_names {T : Type} (opts : BackendOpts T) (n : option string) :
  In n (map name (defaultEnvs opts)) ->
  n <> Some "APP_PORT" /\ n <> Some "NEXT_PUBLIC_MODEL".
Proof.
  unfold defaultEnvs, vectorDbEnvs. rewrite map_app. intros H.
  apply in_app_or in H. destruct H as [H | H].
  - cbn in H. repeat (destruct H as [<- | H]; [split; discriminate|]). contradiction.
  - destruct (vectorDb opts) as [[|c s]|]; cbn [cond map] in H; try contradiction.
    unfold getVectorDBEnvs in H.
    repeat (match type of H with context [if ?b then _ else _] => destruct b end;
            [cbn in H; repeat (destruct H as [<- | H]; [split; discriminate|]);
             contradiction|]).
    contradiction.
Qed.

(** X18. Among the names of the backend assembly, [APP_PORT] occurs
    exactly when the framework is ["fastapi"] and [NEXT_PUBLIC_MODEL]
    exactly when it is ["nextjs"]. *)
Theorem backend_framework_names {T : Type} (opts : BackendOpts T) :
  (In (Some "APP_PORT") (map name (backendEnvVars opts))
   <-> framework opts = Some "fastapi") /\
  (In (Some "NEXT_PUBLIC_MODEL") (map name (backendEnvVars opts))
   <-> framework opts = Some "nextjs").
Proof.
  unfold backendEnvVars, otherFrameworkEnv.
  destruct (framework_is opts "fastapi") eqn:Ef.
  - apply framework_is_iff in Ef. rewrite Ef, map_app. split; split; intros H.
    + reflexivity.
    + apply in_or_app. right. cbn. tauto.
    + exfalso. apply in_app_or in H. destruct H as [H | H].
      * now apply (defaultEnvs_names opts) in H.
      * cbn in H. repeat (destruct H as [H | H]; [discriminate|]). contradiction.
    + discriminate.
  - assert (Hf : framework opts <> Some "fastapi")
      by (intros H; apply framework_is_iff in H; congruence).
    rewrite map_app. destruct (framework_is opts "nextjs") eqn:En.
    + apply framework_is_iff in En. split; split; intros H.
      * exfalso. apply in_app_or in H. destruct H as [H | H].
        -- now apply (defaultEnvs_names opts) in H.
        -- cbn in H. destruct H as [H | []]. discriminate.
      * contradiction.
      * exact En.
      * apply in_or_app. right. now left.
    + assert (Hn : framework opts <> Some "nextjs")
        by (intros H; apply framework_is_iff in H; congruence).
      split; split; intros H; try contradiction.
      all: exfalso; apply in_app_or in H; destruct H as [H | H];
        [now apply (defaultEnvs_names opts) in H | cbn in H; destruct H as [H | []]; discriminate].
Qed.

(** ** The further theorems at concrete inputs *)

Lemma render_line_format_witness :
  "X=Y" = "" \/ is_comment "X=Y" = true \/
  exists e n v, In e [mkEnvVar (Some "X") (Some "about X") (Some "Y")] /\
                name e = Some n /\ value e = Some v /\
                n <> "" /\ v <> "" /\ "X=Y" = n ++ "=" ++ v.
Proof.
  apply (render_line_format [mkEnvVar (Some "X") (Some "about X") (Some "Y")] "X=Y").
  - repeat constructor.
  - right. left. reflexivity.
Defined.

Lemma render_entry_has_line_witness :
  has_line "X=Y"
    (renderEnvVar [mkEnvVar (Some "A") None None;
                   mkEnvVar (Some "X") (Some ("two" ++ nl ++ "lines")) (Some "Y")]) /\
  has_line "# A="
    (renderEnvVar [mkEnvVar (Some "A") None None;
                   mkEnvVar (Some "X") (Some ("two" ++ nl ++ "lines")) (Some "Y")]).
Proof.
  split.
  - apply (proj1 (render_entry_has_line
                    [mkEnvVar (Some "A") None None;
                    mkEnvVar (Some "X") (Some ("two" ++ nl ++ "lines")) (Some "Y")]
                    (mkEnvVar (Some "X") (Some ("two" ++ nl ++ "lines"))
                                             (Some "Y")) "X"
                    (or_intror (or_introl eq_refl)) eq_refl ltac:(discriminate) eq_refl)
             "Y" eq_refl ltac:(discriminate) eq_refl).
  - apply (proj2 (render_entry_has_line
                    [mkEnvVar (Some "A") None None;
                    mkEnvVar (Some "X") (Some ("two" ++ nl ++ "lines")) (Some "Y")]
                    (mkEnvVar (Some "A") None None) "A"
                    (or_introl eq_refl) eq_refl ltac:(discriminate) eq_refl) eq_refl).
Defined.




Lemma copy_nothing_to_copy_witness :
  copy Posix.join Posix.resolve Posix.dirname Posix.basename
    (fun _ _ _ => []) (fun _ _ => false)
    (One "missing") (Some "out") None []
  = ([Glob ["missing"] None], inr []) /\
  copy Posix.join Posix.resolve Posix.dirname Posix.basename
    (fun _ _ _ => ["a.txt"]) (fun _ c => match c with Glob _ _ => true | _ => false end)
    (One "*") (Some "out") None []
  = ([Glob ["*"] None], inl (IOFailure (Glob ["*"] None))).
Proof.
  split.
  - apply (proj2 (copy_nothing_to_copy Posix.join Posix.resolve Posix.dirname Posix.basename
                    (fun _ _ _ => []) (fun _ _ => false)
                    (One "missing") "out" None [] ltac:(discriminate) ltac:(discriminate))
             eq_refl eq_refl).
  - apply (proj1 (copy_nothing_to_copy Posix.join Posix.resolve Posix.dirname Posix.basename
                    (fun _ _ _ => ["a.txt"])
                    (fun _ c => match c with Glob _ _ => true | _ => false end)
                    (One "*") "out" None [] ltac:(discriminate) ltac:(discriminate))
             eq_refl).
Defined.

Lemma createBackendEnvFile_write_then_log_witness :
  fst (createBackendEnvFile Posix.join (fun _ _ => false) "proj"
         (mkBackendOpts (TemplateDataSource := unit) None None None None None None None None)
         [])
  = [WriteFile "proj/.env"
       (backendEnvContent
          (mkBackendOpts (TemplateDataSource := unit) None None None None None None None None));
     ConsoleLog "Created '.env' file. Please check the settings."] /\
  createBackendEnvFile Posix.join (fun _ _ => true) "proj"
    (mkBackendOpts (TemplateDataSource := unit) None None None None None None None None) []
  = ([WriteFile "proj/.env"
        (backendEnvContent
           (mkBackendOpts (TemplateDataSource := unit) None None None None None None None None))],
     inl (IOFailure
            (WriteFile "proj/.env"
               (backendEnvContent
                  (mkBackendOpts (TemplateDataSource := unit)
                     None None None None None None None None))))).
Proof.
  split.
  - apply (proj2 (createBackendEnvFile_write_then_log Posix.join (fun _ _ => false) "proj"
                    (mkBackendOpts (TemplateDataSource := unit)
                       None None None None None None None None) []) eq_refl).
  - apply (proj1 (createBackendEnvFile_write_then_log Posix.join (fun _ _ => true) "proj"
                    (mkBackendOpts (TemplateDataSource := unit)
                       None None None None None None None None) []) eq_refl).
Defined.


Lemma backend_api_key_lines_witness :
  has_line "TSI_API_KEY=secret"
    (backendEnvContent
       (mkBackendOpts (TemplateDataSource := unit)
          (Some "secret") (Some "") (Some "milvus") None None None None None)) /\
  has_line "# LLAMA_CLOUD_API_KEY="
    (backendEnvContent
       (mkBackendOpts (TemplateDataSource := unit)
          (Some "secret") (Some "") (Some "milvus") None None None None None)).
Proof.
  pose proof (backend_api_key_lines
                (mkBackendOpts (TemplateDataSource := unit)
                   (Some "secret") (Some "") (Some "milvus") None None None None None))
    as [H1 [_ [_ H4]]].
  split.
  - apply (H1 "secret" eq_refl); [discriminate | reflexivity].
  - apply H4. reflexivity.
Defined.


Lemma backend_content_ignores_fastapi_options_witness :
  backendEnvContent
    (mkBackendOpts (TemplateDataSource := unit)
       (Some "k") None (Some "pg") None None (Some "express") None None)
  = backendEnvContent
      (mkBackendOpts (TemplateDataSource := nat)
         (Some "k") None (Some "pg") None (Some "embed") (Some "express")
         (Some [1%nat]) (Some 3000%Z)).
Proof.
  apply backend_content_ignores_fastapi_options;
    [discriminate | reflexivity | reflexivity | reflexivity | reflexivity | reflexivity].
Defined.

Lemma frontend_model_lines_witness :
  has_line "# NEXT_PUBLIC_MODEL=" (frontendEnvContent (mkFrontendOpts None None)) /\
  has_line "NEXT_PUBLIC_MODEL=llama" (frontendEnvContent (mkFrontendOpts None (Some "llama"))).
Proof.
  split.
  - apply (proj2 (proj1 (frontend_model_lines (mkFrontendOpts None None)) eq_refl)).
  - apply (proj2 (proj2 (frontend_model_lines (mkFrontendOpts None (Some "llama")))
                    "llama" eq_refl ltac:(discriminate) eq_refl)).
Defined.

Lemma frontend_chat_api_line_witness :
  has_line "NEXT_PUBLIC_CHAT_API=http://localhost:8000/api/chat"
    (frontendEnvContent (mkFrontendOpts (Some "") None)) /\
  has_line "NEXT_PUBLIC_CHAT_API=/api/chat"
    (frontendEnvContent (mkFrontendOpts (Some "/api/chat") None)).
Proof.
  split.
  - apply (proj1 (frontend_chat_api_line (mkFrontendOpts (Some "") None)) eq_refl).
  - apply (proj2 (frontend_chat_api_line (mkFrontendOpts (Some "/api/chat") None))
             "/api/chat" eq_refl ltac:(discriminate) eq_refl).
Defined.
